(** * Agent Crafter API: a shallow embedding of [main.py]

    The development follows the source file top to bottom: Python text
    values, the two pydantic models, the diagnostics handler
    [test_database], the four persona responders and the handler
    [agent_respond], then the properties of the specification and of
    the code. *)

From Stdlib Require Import NArith List String Ascii Lia.
From stdpp Require Import base option list strings gmap fin_maps.

Local Open Scope N_scope.
Local Open Scope list_scope.

(** ** Python text *)

(** A Python [str] is a sequence of Unicode code points. *)
Abbreviation pystr := (list N).

(** Source literals are written as in [main.py]; the literal's UTF-8
    bytes are decoded into code points. *)
Fixpoint utf8_decode (bs : list N) : pystr :=
  match bs with
  | [] => []
  | b0 :: r0 =>
      if b0 <? 128 then b0 :: utf8_decode r0
      else if b0 <? 224 then
        match r0 with
        | b1 :: r1 =>
            N.lor (N.shiftl (N.land b0 31) 6) (N.land b1 63) :: utf8_decode r1
        | _ => []
        end
      else if b0 <? 240 then
        match r0 with
        | b1 :: b2 :: r2 =>
            N.lor (N.shiftl (N.land b0 15) 12)
              (N.lor (N.shiftl (N.land b1 63) 6) (N.land b2 63))
            :: utf8_decode r2
        | _ => []
        end
      else
        match r0 with
        | b1 :: b2 :: b3 :: r3 =>
            N.lor (N.shiftl (N.land b0 7) 18)
              (N.lor (N.shiftl (N.land b1 63) 12)
                 (N.lor (N.shiftl (N.land b2 63) 6) (N.land b3 63)))
            :: utf8_decode r3
        | _ => []
        end
  end.

Definition py (s : string) : pystr :=
  utf8_decode (map N_of_ascii (list_ascii_of_string s)).

(** The escapes ["\n"] and ["\t"] of the source. *)
Definition NL : pystr := [10].
Definition TAB : pystr := [9].

(** [str.isspace] on one code point: the code points CPython's
    [_PyUnicode_IsWhitespace] accepts. *)
Definition isspace (c : N) : bool :=
  ((9 <=? c) && (c <=? 13)) || ((28 <=? c) && (c <=? 32))
  || (c =? 133) || (c =? 160) || (c =? 5760)
  || ((8192 <=? c) && (c <=? 8202))
  || (c =? 8232) || (c =? 8233) || (c =? 8239) || (c =? 8287)
  || (c =? 12288).

Fixpoint dropwhile {A} (f : A -> bool) (l : list A) : list A :=
  match l with
  | [] => []
  | x :: l' => if f x then dropwhile f l' else l
  end.

Fixpoint takewhile {A} (f : A -> bool) (l : list A) : list A :=
  match l with
  | [] => []
  | x :: l' => if f x then x :: takewhile f l' else []
  end.

(** [str.lstrip()], [str.rstrip()] and [str.strip()] with no argument. *)
Definition lstrip (s : pystr) : pystr := dropwhile isspace s.
Definition rstrip (s : pystr) : pystr := rev (dropwhile isspace (rev s)).
Definition strip (s : pystr) : pystr := rstrip (lstrip s).

(** Truth value of a [str]: the empty string is false. *)
Definition str_truthy (s : pystr) : bool :=
  match s with [] => false | _ => true end.

(** ** The pydantic models *)

Module AgentRequest.
Record t := mk {
  role : pystr;
  message : pystr;
  context : option pystr
}.
End AgentRequest.

Module AgentResponse.
Record t := mk {
  role : pystr;
  reply : pystr;
  tips : list pystr
}.
End AgentResponse.

Module HTTPException.
Record t := mk {
  status_code : N;
  detail : pystr
}.
End HTTPException.

(** ** The handler of [GET /test] *)

(** JSON-serialisable values stored in the handler's [response] dict. *)
Inductive pyval :=
  | VNone
  | VStr (s : pystr)
  | VList (l : list pystr).

(** A raised exception: the class that decides which [except] clause
    takes it, and its [str(e)].  [ImportError] stands for the instances
    of [ImportError], [Exception] for the other instances of
    [Exception], [BaseException] for what is no instance of [Exception]
    ([SystemExit], [KeyboardInterrupt]). *)
Module PyExc.
Inductive kind := ImportError | Exception | BaseException.
Record t := mk {
  cls : kind;
  str : pystr
}.
(** [isinstance(e, ImportError)] and [isinstance(e, Exception)] *)
Definition is_ImportError (e : t) : bool :=
  match cls e with
  | ImportError => true
  | _ => false
  end.
Definition is_Exception (e : t) : bool :=
  match cls e with
  | BaseException => false
  | _ => true
  end.
End PyExc.

(** The object bound to [db] by [from database import db]:
    [hasattr_name] is what [hasattr(db, "name")] raises or answers,
    [name] what evaluating [db.name] raises or gives, and
    [list_collection_names] what the call raises or returns. *)
Module Database.
Record t := mk {
  hasattr_name : PyExc.t + bool;
  name : PyExc.t + pyval;
  list_collection_names : PyExc.t + list pystr
}.
End Database.

(** What the handler reads from outside: the outcome of the import
    (an exception, or the value of [db], which may be [None]) and the
    process environment [os.environ]. *)
Module World.
Record t := mk {
  import_db : PyExc.t + option Database.t;
  environ : gmap pystr pystr
}.
End World.

(** Statements that mutate the local dict [response] and may raise:
    state passing, with the state kept when an exception escapes. *)
Definition M (A : Type) : Type :=
  gmap string pyval -> gmap string pyval * (PyExc.t + A).

Definition ret {A} (a : A) : M A := fun r => (r, inr a).

Definition bind {A B} (m : M A) (k : A -> M B) : M B :=
  fun r =>
    match m r with
    | (r', inl e) => (r', inl e)
    | (r', inr a) => k a r'
    end.

Definition raise {A} (e : PyExc.t) : M A := fun r => (r, inl e).

(** [response[k] = v] *)
Definition setitem (k : string) (v : pyval) : M unit :=
  fun r => (<[k := v]> r, inr tt).

(** [return response] *)
Definition return_response : M (gmap string pyval) := fun r => (r, inr r).

(** The [except] clauses of a [try], tried in order: the first whose
    class test accepts the exception runs; an exception no clause
    accepts goes on. *)
Fixpoint handle {A} (clauses : list ((PyExc.t -> bool) * (PyExc.t -> M A)))
    (e : PyExc.t) : M A :=
  match clauses with
  | [] => raise e
  | (accepts, handler) :: rest =>
      if accepts e then handler e else handle rest e
  end.

(** [try: body except C1 as e: h1 except C2 as e: h2 ...] *)
Definition try_except {A} (body : M A)
    (clauses : list ((PyExc.t -> bool) * (PyExc.t -> M A))) : M A :=
  fun r =>
    match body r with
    | (r', inl e) => handle clauses e r'
    | (r', inr a) => (r', inr a)
    end.

(** A call or import whose outcome the world fixes. *)
Definition outcome {A} (o : PyExc.t + A) : M A :=
  match o with
  | inl e => raise e
  | inr a => ret a
  end.

Declare Scope py_scope.
Delimit Scope py_scope with py_scope.
Notation "x <- m ;; k" := (bind m (fun x => k))
  (at level 100, m at next level, right associativity) : py_scope.
Notation "m ;; k" := (bind m (fun _ => k))
  (at level 100, right associativity) : py_scope.

(** [os.getenv(key)] *)
Definition getenv (environ : gmap pystr pystr) (key : pystr) : option pystr :=
  environ !! key.

(** Truth value of an [Optional[str]]. *)
Definition opt_truthy (o : option pystr) : bool :=
  match o with
  | None => false
  | Some s => str_truthy s
  end.

Definition test_database_body (w : World.t) : M (gmap string pyval) :=
  (try_except
     (db <- outcome (World.import_db w) ;;
      match db with
      | Some db =>
          setitem "database" (VStr (py "✅ Available")) ;;
          setitem "database_url" (VStr (py "✅ Configured")) ;;
          name <- (has <- outcome (Database.hasattr_name db) ;;
                   if has : bool then outcome (Database.name db)
                   else ret (VStr (py "✅ Connected"))) ;;
          setitem "database_name" name ;;
          setitem "connection_status" (VStr (py "Connected")) ;;
          try_except
            (collections <- outcome (Database.list_collection_names db) ;;
             setitem "collections" (VList (firstn 10 collections)) ;;
             setitem "database" (VStr (py "✅ Connected & Working")))
            [(PyExc.is_Exception,
              fun e =>
                setitem "database"
                  (VStr (py "⚠️  Connected but Error: "
                         ++ firstn 50 (PyExc.str e))))]
      | None =>
          setitem "database" (VStr (py "⚠️  Available but not initialized"))
      end)
     [(PyExc.is_ImportError,
       fun _ =>
         setitem "database"
           (VStr (py "❌ Database module not found (run enable-database first)")));
      (PyExc.is_Exception,
       fun e =>
         setitem "database"
           (VStr (py "❌ Error: " ++ firstn 50 (PyExc.str e))))] ;;
   setitem "database_url"
     (VStr (if opt_truthy (getenv (World.environ w) (py "DATABASE_URL"))
            then py "✅ Set" else py "❌ Not Set")) ;;
   setitem "database_name"
     (VStr (if opt_truthy (getenv (World.environ w) (py "DATABASE_NAME"))
            then py "✅ Set" else py "❌ Not Set")) ;;
   return_response)%py_scope.

Definition test_database (w : World.t) : PyExc.t + gmap string pyval :=
  let response : gmap string pyval :=
    <["backend" := VStr (py "✅ Running")]>
    (<["database" := VStr (py "❌ Not Available")]>
    (<["database_url" := VNone]>
    (<["database_name" := VNone]>
    (<["connection_status" := VStr (py "Not Connected")]>
    (<["collections" := VList []]> ∅))))) in
  snd (test_database_body w response).

(** ** The persona responders *)

Definition _respond_general (message : pystr) : AgentResponse.t :=
  let reply :=
    py "I'm your Agent Crafter assistant. Tell me what you want to achieve and I'll help break it down into clear steps. "
    ++ (py "You said: '" ++ message ++ py "'. Here's how we can proceed:") in
  let tips := [
    py "Be specific about your goal and constraints";
    py "Share any examples or formats you prefer";
    py "We can iterate until it feels right"
  ] in
  AgentResponse.mk (py "general") reply tips.

Definition _respond_student (message : pystr) : AgentResponse.t :=
  let reply :=
    (py "Let's approach this like a helpful study partner. We'll clarify the concept, give an example, and outline steps." ++ NL ++ NL)
    ++ (py "Question/Topic: " ++ message ++ NL ++ NL)
    ++ (py "1) Concept overview: In simple terms, this is about understanding the core idea and how it connects to related topics." ++ NL)
    ++ (py "2) Quick example: We'll use a small, concrete example to make it stick." ++ NL)
    ++ (py "3) Study steps: Read -> Summarize -> Practice -> Review." ++ NL) in
  let tips := [
    py "Ask for a practice question if you'd like";
    py "Say 'explain like I'm 12' for simpler wording";
    py "We can create flashcards from any topic"
  ] in
  AgentResponse.mk (py "student") reply tips.

Definition _respond_finance (message : pystr) : AgentResponse.t :=
  let reply :=
    (py "I am not a financial advisor, but I can offer general, educational guidance." ++ NL ++ NL)
    ++ (py "Topic: " ++ message ++ NL ++ NL)
    ++ (py "Framework:" ++ NL)
    ++ (py "- Goal: Define time horizon and risk tolerance" ++ NL)
    ++ (py "- Snapshot: Income, expenses, debts, and savings" ++ NL)
    ++ (py "- Plan: Diversify, keep costs low, automate contributions" ++ NL)
    ++ (py "- Risk note: Markets fluctuate; consider professional advice for decisions" ++ NL) in
  let tips := [
    py "We can outline a sample budget or emergency fund plan";
    py "Ask for pros and cons of an option";
    py "Request a checklist you can follow"
  ] in
  AgentResponse.mk (py "finance") reply tips.

Definition _respond_lawyer (message : pystr) : AgentResponse.t :=
  let reply :=
    (py "I am not a lawyer, but I can provide general, educational information." ++ NL ++ NL)
    ++ (py "Issue: " ++ message ++ NL ++ NL)
    ++ (py "Consider:" ++ NL)
    ++ (py "- Jurisdiction matters: laws vary by location" ++ NL)
    ++ (py "- Definitions: clarify terms and parties involved" ++ NL)
    ++ (py "- Process: typical steps, timelines, and documents" ++ NL)
    ++ (py "- Disclaimer: For actionable advice, consult a licensed attorney" ++ NL) in
  let tips := [
    py "Share your location to get more tailored general info";
    py "Ask for a plain-language summary of key terms";
    py "We can draft a generic template for learning purposes"
  ] in
  AgentResponse.mk (py "lawyer") reply tips.

(** ** The handler of [POST /api/agent/respond] *)

(** The four responders, as the handler's call log names them. *)
Inductive persona := General | Student | Finance | Lawyer.

(** Outcome of a handler run: the responders it called, in order, and
    either the exception it raised or the value it returned. *)
Definition agent_respond (req : AgentRequest.t)
  : list persona * (HTTPException.t + AgentResponse.t) :=
  let message := strip (AgentRequest.message req) in
  if negb (str_truthy message) then
    ([], inl (HTTPException.mk 400 (py "Message cannot be empty")))
  else if bool_decide (AgentRequest.role req = py "student") then
    ([Student], inr (_respond_student message))
  else if bool_decide (AgentRequest.role req = py "finance") then
    ([Finance], inr (_respond_finance message))
  else if bool_decide (AgentRequest.role req = py "lawyer") then
    ([Lawyer], inr (_respond_lawyer message))
  else
    ([General], inr (_respond_general message)).

(** ** The boundary of [POST /api/agent/respond] *)

(** The JSON body before validation; an absent key is [None]. *)
Module RawRequest.
Record t := mk {
  role : option pystr;
  message : option pystr;
  context : option pystr
}.
End RawRequest.

(** Validation of the body against [AgentRequest]: [role] defaults to
    ["general"] and is one of the four literals, [message] is required
    with [min_length=1], [context] is optional.  The fields are taken to
    hold Unicode text ([unicode_body] below); what the framework does
    with a string that cannot be encoded is not modelled. *)
Definition validate (raw : RawRequest.t) : option AgentRequest.t :=
  let role := default (py "general") (RawRequest.role raw) in
  if bool_decide
       (role ∈ [py "general"; py "student"; py "finance"; py "lawyer"])
  then
    match RawRequest.message raw with
    | Some message =>
        if (1 <=? length message)%nat
        then Some (AgentRequest.mk role message (RawRequest.context raw))
        else None
    | None => None
    end
  else None.

(** What the route answers: the body is refused by validation and the
    handler does not run, or the handler runs. *)
Inductive route_result :=
  | Unprocessable
  | Handled (run : list persona * (HTTPException.t + AgentResponse.t)).

Definition post_agent_respond (raw : RawRequest.t) : route_result :=
  match validate raw with
  | None => Unprocessable
  | Some req => Handled (agent_respond req)
  end.

Definition http_status (r : route_result) : N :=
  match r with
  | Unprocessable => 422
  | Handled (_, inl e) => HTTPException.status_code e
  | Handled (_, inr _) => 200
  end.

(** ** Vocabulary of the specification *)

(** The responder behind each persona. *)
Definition respond_with (p : persona) (message : pystr) : AgentResponse.t :=
  match p with
  | General => _respond_general message
  | Student => _respond_student message
  | Finance => _respond_finance message
  | Lawyer => _respond_lawyer message
  end.

(** Canonical persona names (specification, section 3). *)
Definition persona_name (p : persona) : pystr :=
  match p with
  | General => py "general"
  | Student => py "student"
  | Finance => py "finance"
  | Lawyer => py "lawyer"
  end.

(** The tips column of the table in section 4.1 of the specification. *)
Definition spec_tips (p : persona) : list pystr :=
  match p with
  | General =>
      [py "Be specific about your goal and constraints";
       py "Share any examples or formats you prefer";
       py "We can iterate until it feels right"]
  | Student =>
      [py "Ask for a practice question if you'd like";
       py "Say 'explain like I'm 12' for simpler wording";
       py "We can create flashcards from any topic"]
  | Finance =>
      [py "We can outline a sample budget or emergency fund plan";
       py "Ask for pros and cons of an option";
       py "Request a checklist you can follow"]
  | Lawyer =>
      [py "Share your location to get more tailored general info";
       py "Ask for a plain-language summary of key terms";
       py "We can draft a generic template for learning purposes"]
  end.

(** The tie-break of section 4.1: a role other than ["student"],
    ["finance"] and ["lawyer"] resolves to the general persona. *)
Definition persona_of_role (role : pystr) : persona :=
  if bool_decide (role = py "student") then Student
  else if bool_decide (role = py "finance") then Finance
  else if bool_decide (role = py "lawyer") then Lawyer
  else General.

(** The label under which each reply echoes the message, and the text
    that closes the echo (a quote for the general persona, a blank line
    for the others). *)
Definition label (p : persona) : pystr :=
  match p with
  | General => py "You said: '"
  | Student => py "Question/Topic: "
  | Finance => py "Topic: "
  | Lawyer => py "Issue: "
  end.

Definition closing (p : persona) : pystr :=
  match p with
  | General => py "'"
  | _ => NL ++ NL
  end.

(** The fixed text of each reply before the label and after the echo. *)
Definition preamble (p : persona) : pystr :=
  match p with
  | General =>
      py "I'm your Agent Crafter assistant. Tell me what you want to achieve and I'll help break it down into clear steps. "
  | Student =>
      py "Let's approach this like a helpful study partner. We'll clarify the concept, give an example, and outline steps."
      ++ NL ++ NL
  | Finance =>
      py "I am not a financial advisor, but I can offer general, educational guidance."
      ++ NL ++ NL
  | Lawyer =>
      py "I am not a lawyer, but I can provide general, educational information."
      ++ NL ++ NL
  end.

Definition remainder (p : persona) : pystr :=
  match p with
  | General => py ". Here's how we can proceed:"
  | Student =>
      py "1) Concept overview: In simple terms, this is about understanding the core idea and how it connects to related topics." ++ NL
      ++ py "2) Quick example: We'll use a small, concrete example to make it stick." ++ NL
      ++ py "3) Study steps: Read -> Summarize -> Practice -> Review." ++ NL
  | Finance =>
      py "Framework:" ++ NL
      ++ py "- Goal: Define time horizon and risk tolerance" ++ NL
      ++ py "- Snapshot: Income, expenses, debts, and savings" ++ NL
      ++ py "- Plan: Diversify, keep costs low, automate contributions" ++ NL
      ++ py "- Risk note: Markets fluctuate; consider professional advice for decisions" ++ NL
  | Lawyer =>
      py "Consider:" ++ NL
      ++ py "- Jurisdiction matters: laws vary by location" ++ NL
      ++ py "- Definitions: clarify terms and parties involved" ++ NL
      ++ py "- Process: typical steps, timelines, and documents" ++ NL
      ++ py "- Disclaimer: For actionable advice, consult a licensed attorney" ++ NL
  end.

(** The reply with [message] echoed at the labelled position. *)
Definition echoes_at_label (p : persona) (message reply : pystr) : Prop :=
  reply = preamble p ++ label p ++ message ++ closing p ++ remainder p.

(** Leading and trailing whitespace of a text. *)
Definition starts_with_space (s : pystr) : bool :=
  match s with
  | [] => false
  | c :: _ => isspace c
  end.

Definition ends_with_space (s : pystr) : bool := starts_with_space (rev s).

Definition leading_space (s : pystr) : pystr := takewhile isspace s.
Definition trailing_space (s : pystr) : pystr :=
  rev (takewhile isspace (rev (lstrip s))).

(** A field of the JSON object that [GET /test] answers with. *)
Definition field (k : string) (o : PyExc.t + gmap string pyval) : option pyval :=
  match o with
  | inl _ => None
  | inr response => response !! k
  end.

(** The fixed error of the handler. *)
Definition empty_message_error : HTTPException.t :=
  HTTPException.mk 400 (py "Message cannot be empty").

(** How far the probe gets: the import, [hasattr(db, "name")] or
    [db.name] raised; the handle is [None]; the listing was called and
    raised; the listing was called and returned. *)
Inductive probe_path :=
  | OuterRaised (e : PyExc.t)
  | HandleNone
  | ListingRaised (e : PyExc.t)
  | ListingReturned (names : list pystr).

Definition listing_path (db : Database.t) : probe_path :=
  match Database.list_collection_names db with
  | inl e => ListingRaised e
  | inr names => ListingReturned names
  end.

Definition path (w : World.t) : probe_path :=
  match World.import_db w with
  | inl e => OuterRaised e
  | inr None => HandleNone
  | inr (Some db) =>
      match Database.hasattr_name db with
      | inl e => OuterRaised e
      | inr false => listing_path db
      | inr true =>
          match Database.name db with
          | inl e => OuterRaised e
          | inr _ => listing_path db
          end
      end
  end.

(** The exception that no [except] clause of the handler takes: one
    raised on the probe's path that is no instance of [Exception]. *)
Definition escaping (w : World.t) : option PyExc.t :=
  match path w with
  | OuterRaised e | ListingRaised e =>
      if PyExc.is_Exception e then None else Some e
  | _ => None
  end.

(** The status text the probe reports for each outcome it absorbs
    (specification, section 4.2). *)
Definition probe_status (w : World.t) : pystr :=
  match path w with
  | OuterRaised e =>
      if PyExc.is_ImportError e
      then py "❌ Database module not found (run enable-database first)"
      else py "❌ Error: " ++ firstn 50 (PyExc.str e)
  | HandleNone => py "⚠️  Available but not initialized"
  | ListingRaised e => py "⚠️  Connected but Error: " ++ firstn 50 (PyExc.str e)
  | ListingReturned _ => py "✅ Connected & Working"
  end.

(** The names the external listing gave, when the probe got that far. *)
Definition listed_names (w : World.t) : option (list pystr) :=
  match path w with
  | ListingReturned names => Some names
  | _ => None
  end.

(** The assignment to [connection_status] was reached: the import gave
    a handle that is not [None] and reading its name raised nothing, so
    that the listing was called next. *)
Definition handle_ready (w : World.t) : bool :=
  match path w with
  | ListingRaised _ | ListingReturned _ => true
  | _ => false
  end.

(** A variable is set when it is present in the environment, whatever
    its value; it is configured when present with a non-empty value. *)
Definition is_set (environ : gmap pystr pystr) (key : pystr) : bool :=
  match getenv environ key with
  | Some _ => true
  | None => false
  end.

Definition configured (environ : gmap pystr pystr) (key : pystr) : bool :=
  opt_truthy (getenv environ key).

(** The two indicator texts of the environment check. *)
Definition indicator (b : bool) : pyval :=
  VStr (if b then py "✅ Set" else py "❌ Not Set").

(** Reads [response[k]] after a chain of assignments. *)
Ltac read_item :=
  repeat first
    [ rewrite lookup_insert_eq
    | rewrite lookup_insert_ne by discriminate ].

(** Splits a world along the probe: each call is split only where the
    probe gets to it. *)
Ltac probe_cases w :=
  let has := fresh "has" in
  let nm := fresh "nm" in
  let lst := fresh "lst" in
  destruct w as [[[[| |] ?msg] | [[has nm lst] |]] ?env];
  [ | |
  | destruct has as [[[| |] ?msg] | [|]];
    [ | |
    | destruct nm as [[[| |] ?msg] | ?v];
      [ | | | destruct lst as [[[| |] ?msg] | ?names] ]
    | destruct lst as [[[| |] ?msg] | ?names] ]
  | ].

(** Runs the handler of [GET /test] on a world split by outcome. *)
Ltac run_test_database :=
  cbv [test_database test_database_body try_except handle bind outcome ret
       raise setitem return_response snd field World.import_db World.environ
       Database.hasattr_name Database.name Database.list_collection_names
       PyExc.is_ImportError PyExc.is_Exception PyExc.cls PyExc.str
       path listing_path escaping probe_status listed_names handle_ready] in *.

(** The number of characters each template puts around the echo. *)
Definition reply_overhead (p : persona) : nat :=
  match p with
  | General => 153
  | Student => 380
  | Finance => 327
  | Lawyer => 303
  end.



(** Text that encodes to UTF-8: code points up to U+10FFFF, none of them
    a surrogate.  The boundary is modelled for bodies made of such text. *)
Definition unicode_text (s : pystr) : bool :=
  forallb (fun c => (c <=? 1114111) && negb ((55296 <=? c) && (c <=? 57343))) s.

Definition unicode_body (raw : RawRequest.t) : bool :=
  match RawRequest.role raw with Some s => unicode_text s | None => true end
  && match RawRequest.message raw with Some s => unicode_text s | None => true end
  && match RawRequest.context raw with Some s => unicode_text s | None => true end.

(** The six keys of the diagnostics object. *)
Definition diagnostics_keys : gset string :=
  {[ "backend"; "database"; "database_url"; "database_name";
     "connection_status"; "collections" ]}.

Example py_ascii : py "a b" = [97; 32; 98].
Proof. reflexivity. Qed.

Example py_check_mark : py "✅ Set" = [9989; 32; 83; 101; 116].
Proof. reflexivity. Qed.

Example py_warning : py "⚠️ " = [9888; 65039; 32].
Proof. reflexivity. Qed.

Example strip_example :
  strip (TAB ++ py "  a b " ++ NL) = py "a b".
Proof. reflexivity. Qed.

Example agent_respond_student :
  agent_respond (AgentRequest.mk (py "student") (py "derivatives") None)
  = ([Student], inr (_respond_student (py "derivatives"))).
Proof. vm_compute. reflexivity. Qed.

Example test_database_no_module :
  let w :=
    World.mk (inl (PyExc.mk PyExc.ImportError (py "No module named 'database'")))
      ∅ in
  field "database" (test_database w)
    = Some (VStr (py "❌ Database module not found (run enable-database first)"))
  /\ field "database_url" (test_database w) = Some (VStr (py "❌ Not Set"))
  /\ field "connection_status" (test_database w) = Some (VStr (py "Not Connected"))
  /\ field "collections" (test_database w) = Some (VList []).
Proof. repeat split; vm_compute; reflexivity. Qed.

(** ** Trimming *)

Section While.
Context {A : Type} (f : A -> bool).

Lemma takewhile_dropwhile (l : list A) :
  takewhile f l ++ dropwhile f l = l.
Proof.
  induction l as [|x l IH]; simpl; [reflexivity|].
  destruct (f x); simpl; [now rewrite IH | reflexivity].
Qed.

Lemma takewhile_all (l : list A) :
  forallb f (takewhile f l) = true.
Proof.
  induction l as [|x l IH]; simpl; [reflexivity|].
  destruct (f x) eqn:E; simpl; [now rewrite E | reflexivity].
Qed.

Lemma dropwhile_head (l : list A) (x : A) (l' : list A) :
  dropwhile f l = x :: l' -> f x = false.
Proof.
  induction l as [|y l IH]; simpl; [discriminate|].
  destruct (f y) eqn:E; [exact IH|].
  intros [= <- _]. exact E.
Qed.

Lemma dropwhile_id (l : list A) :
  match l with [] => true | x :: _ => negb (f x) end = true ->
  dropwhile f l = l.
Proof.
  destruct l as [|x l]; simpl; [reflexivity|].
  destruct (f x); [discriminate | reflexivity].
Qed.

Lemma dropwhile_all (l : list A) :
  forallb f l = true -> dropwhile f l = [].
Proof.
  induction l as [|x l IH]; simpl; [reflexivity|].
  destruct (f x); simpl; [exact IH | discriminate].
Qed.

Lemma dropwhile_nil_all (l : list A) :
  dropwhile f l = [] -> forallb f l = true.
Proof.
  induction l as [|x l IH]; simpl; [reflexivity|].
  destruct (f x); simpl; [exact IH | discriminate].
Qed.
End While.

Lemma starts_with_space_negb (s : pystr) :
  starts_with_space s = false ->
  match s with [] => true | c :: _ => negb (isspace c) end = true.
Proof. destruct s as [|c s]; simpl; [reflexivity|]. now intros ->. Qed.

Lemma lstrip_starts (s : pystr) : starts_with_space (lstrip s) = false.
Proof.
  unfold lstrip. destruct (dropwhile isspace s) as [|c l] eqn:E; [reflexivity|].
  simpl. exact (dropwhile_head isspace s c l E).
Qed.

Lemma rstrip_ends (s : pystr) : ends_with_space (rstrip s) = false.
Proof.
  unfold ends_with_space, rstrip. rewrite rev_involutive.
  destruct (dropwhile isspace (rev s)) as [|c l] eqn:E; [reflexivity|].
  simpl. exact (dropwhile_head isspace (rev s) c l E).
Qed.

(** [rstrip] cuts a suffix of whitespace. *)
Lemma rstrip_split (s : pystr) :
  s = rstrip s ++ rev (takewhile isspace (rev s)).
Proof.
  unfold rstrip. rewrite <- rev_app_distr, takewhile_dropwhile.
  now rewrite rev_involutive.
Qed.

Lemma rstrip_starts (s : pystr) :
  starts_with_space s = false -> starts_with_space (rstrip s) = false.
Proof.
  intros H. pose proof (rstrip_split s) as E.
  destruct (rstrip s) as [|c l]; [reflexivity|].
  rewrite E in H. exact H.
Qed.

Lemma strip_split (s : pystr) :
  s = leading_space s ++ strip s ++ trailing_space s.
Proof.
  unfold leading_space, trailing_space, strip.
  rewrite <- rstrip_split. unfold lstrip.
  now rewrite takewhile_dropwhile.
Qed.

Lemma leading_space_all (s : pystr) : forallb isspace (leading_space s) = true.
Proof. apply takewhile_all. Qed.

Lemma trailing_space_all (s : pystr) : forallb isspace (trailing_space s) = true.
Proof.
  unfold trailing_space. rewrite forallb_forall. intros c Hc.
  apply in_rev in Hc. revert c Hc. rewrite <- forallb_forall.
  apply takewhile_all.
Qed.

Lemma strip_starts (s : pystr) : starts_with_space (strip s) = false.
Proof. apply rstrip_starts, lstrip_starts. Qed.

Lemma strip_ends (s : pystr) : ends_with_space (strip s) = false.
Proof. apply rstrip_ends. Qed.

Lemma strip_id (s : pystr) :
  starts_with_space s = false -> ends_with_space s = false -> strip s = s.
Proof.
  intros Hs He. unfold strip, lstrip, rstrip.
  rewrite (dropwhile_id isspace s (starts_with_space_negb s Hs)).
  rewrite (dropwhile_id isspace (rev s) (starts_with_space_negb (rev s) He)).
  apply rev_involutive.
Qed.

Lemma strip_nil_iff (s : pystr) :
  strip s = [] <-> forallb isspace s = true.
Proof.
  split.
  - intros H. rewrite (strip_split s), H. simpl.
    rewrite forallb_app, leading_space_all, trailing_space_all. reflexivity.
  - intros H. unfold strip, lstrip. now rewrite (dropwhile_all isspace s H).
Qed.

Lemma str_truthy_strip (s : pystr) :
  strip s <> [] -> str_truthy (strip s) = true.
Proof. destruct (strip s); [congruence | reflexivity]. Qed.

(** ** The handler [agent_respond] *)

Lemma persona_of_role_name (p : persona) : persona_of_role (persona_name p) = p.
Proof. destruct p; vm_compute; reflexivity. Qed.

(** With a message that is not blank the handler calls exactly the
    responder of the role's persona, on the trimmed message. *)
Lemma agent_respond_dispatch (req : AgentRequest.t) :
  strip (AgentRequest.message req) <> [] ->
  agent_respond req =
    ([persona_of_role (AgentRequest.role req)],
     inr (respond_with (persona_of_role (AgentRequest.role req))
            (strip (AgentRequest.message req)))).
Proof.
  intros H. unfold agent_respond, persona_of_role.
  rewrite (str_truthy_strip _ H). simpl.
  repeat case_bool_decide; reflexivity.
Qed.

(** With a blank message the handler raises and calls no responder. *)
Lemma agent_respond_blank (req : AgentRequest.t) :
  strip (AgentRequest.message req) = [] ->
  agent_respond req = ([], inl empty_message_error).
Proof. intros H. unfold agent_respond. rewrite H. reflexivity. Qed.

(** The general template closes the quote and goes on in one literal. *)
Lemma general_tail :
  py "'. Here's how we can proceed:" = py "'" ++ py ". Here's how we can proceed:".
Proof. vm_compute. reflexivity. Qed.

(** Every responder echoes its argument between fixed texts. *)
Lemma respond_with_echoes (p : persona) (m : pystr) :
  echoes_at_label p m (AgentResponse.reply (respond_with p m)).
Proof.
  unfold echoes_at_label.
  destruct p;
    unfold respond_with, _respond_general, _respond_student, _respond_finance,
      _respond_lawyer, AgentResponse.reply, preamble, label, closing, remainder;
    try rewrite general_tail; repeat rewrite <- app_assoc; reflexivity.
Qed.

Lemma respond_with_role (p : persona) (m : pystr) :
  AgentResponse.role (respond_with p m) = persona_name p.
Proof. destruct p; reflexivity. Qed.

Lemma respond_with_tips (p : persona) (m : pystr) :
  AgentResponse.tips (respond_with p m) = spec_tips p.
Proof. destruct p; reflexivity. Qed.

(** C1: for each of the four roles and every message that is not empty
    after trimming, the handler returns a response whose [role] is the
    persona's canonical name and whose [tips] are the three tips of the
    specification's table, in that order. *)
Theorem respond_role_and_tips (p : persona) (message : pystr)
    (context : option pystr) :
  strip message <> [] ->
  exists resp,
    agent_respond (AgentRequest.mk (persona_name p) message context)
      = ([p], inr resp)
    /\ AgentResponse.role resp = persona_name p
    /\ AgentResponse.tips resp = spec_tips p
    /\ length (AgentResponse.tips resp) = 3%nat.
Proof.
  intros H.
  exists (respond_with p (strip message)).
  rewrite agent_respond_dispatch by exact H.
  cbn [AgentRequest.role AgentRequest.message].
  rewrite persona_of_role_name, respond_with_role, respond_with_tips.
  repeat split. destruct p; reflexivity.
Qed.

Lemma respond_role_and_tips_witness :
  strip (py "derivatives") <> []
  /\ exists resp,
       agent_respond (AgentRequest.mk (persona_name Student) (py "derivatives") None)
         = ([Student], inr resp)
       /\ AgentResponse.role resp = persona_name Student
       /\ AgentResponse.tips resp = spec_tips Student
       /\ length (AgentResponse.tips resp) = 3%nat.
Proof.
  split.
  - vm_compute. discriminate.
  - apply (respond_role_and_tips Student (py "derivatives") None).
    vm_compute. discriminate.
Defined.

(** C2: the dispatch is total: whatever the role, exactly one responder
    runs; it is the student, finance or lawyer responder exactly when the
    role is ["student"], ["finance"] or ["lawyer"], and the general
    responder for every other role value. *)
Theorem dispatch_total (req : AgentRequest.t) :
  strip (AgentRequest.message req) <> [] ->
  exists p,
    agent_respond req
      = ([p], inr (respond_with p (strip (AgentRequest.message req))))
    /\ (p = Student <-> AgentRequest.role req = py "student")
    /\ (p = Finance <-> AgentRequest.role req = py "finance")
    /\ (p = Lawyer <-> AgentRequest.role req = py "lawyer")
    /\ (p = General <->
        AgentRequest.role req <> py "student"
        /\ AgentRequest.role req <> py "finance"
        /\ AgentRequest.role req <> py "lawyer").
Proof.
  intros H. exists (persona_of_role (AgentRequest.role req)).
  split; [exact (agent_respond_dispatch req H)|].
  unfold persona_of_role.
  repeat case_bool_decide;
    repeat match goal with E : AgentRequest.role req = _ |- _ => rewrite E in * end;
    repeat split; intros; try discriminate; try congruence; try tauto;
    try (exfalso; vm_compute in *; congruence).
Qed.

Lemma dispatch_total_witness :
  strip (py "hello") <> []
  /\ exists p,
       agent_respond (AgentRequest.mk (py "astronaut") (py "hello") None)
         = ([p], inr (respond_with p (strip (py "hello"))))
       /\ (p = Student <-> py "astronaut" = py "student")
       /\ (p = Finance <-> py "astronaut" = py "finance")
       /\ (p = Lawyer <-> py "astronaut" = py "lawyer")
       /\ (p = General <->
           py "astronaut" <> py "student"
           /\ py "astronaut" <> py "finance"
           /\ py "astronaut" <> py "lawyer").
Proof.
  split.
  - vm_compute. discriminate.
  - apply (dispatch_total (AgentRequest.mk (py "astronaut") (py "hello") None)).
    vm_compute. discriminate.
Defined.

(** ** Where the message lands in the reply *)

Lemma strip_changes (s : pystr) :
  starts_with_space s = true \/ ends_with_space s = true -> strip s <> s.
Proof.
  intros [H | H] E.
  - pose proof (strip_starts s) as F. rewrite E in F. congruence.
  - pose proof (strip_ends s) as F. rewrite E in F. congruence.
Qed.

(** The handler's reply echoes the trimmed message at the label. *)
Lemma agent_respond_echoes (req : AgentRequest.t) :
  strip (AgentRequest.message req) <> [] ->
  exists resp,
    agent_respond req = ([persona_of_role (AgentRequest.role req)], inr resp)
    /\ echoes_at_label (persona_of_role (AgentRequest.role req))
         (strip (AgentRequest.message req)) (AgentResponse.reply resp).
Proof.
  intros H. eexists. split; [exact (agent_respond_dispatch req H)|].
  apply respond_with_echoes.
Qed.

(** C3, as stated, fails: a message with a leading tab is not found in
    the reply, neither at the label nor anywhere else. *)
Lemma verbatim_echo_counterexample :
  let req := AgentRequest.mk (py "student") (TAB ++ py "derivatives") None in
  exists resp,
    agent_respond req = ([Student], inr resp)
    /\ ~ echoes_at_label Student (AgentRequest.message req)
           (AgentResponse.reply resp)
    /\ ~ (exists pre post,
            AgentResponse.reply resp = pre ++ AgentRequest.message req ++ post).
Proof.
  intros req. exists (_respond_student (py "derivatives")).
  assert (Hnone : ~ (exists pre post,
            AgentResponse.reply (_respond_student (py "derivatives"))
            = pre ++ AgentRequest.message req ++ post)).
  { intros (pre & post & E).
    assert (Hin : In 9 (AgentResponse.reply (_respond_student (py "derivatives")))).
    { rewrite E. apply in_or_app. right. apply in_or_app. left.
      left. reflexivity. }
    assert (Hno : forallb (fun c => negb (c =? 9))
                    (AgentResponse.reply (_respond_student (py "derivatives")))
                  = true) by (vm_compute; reflexivity).
    rewrite forallb_forall in Hno. specialize (Hno 9 Hin). discriminate. }
  split; [vm_compute; reflexivity|]. split; [|exact Hnone].
  intros E. apply Hnone.
  exists (preamble Student ++ label Student), (closing Student ++ remainder Student).
  rewrite E. now rewrite <- !app_assoc.
Qed.

(** C3, amended: for every role and every message that is not empty
    after trimming, the reply holds the trimmed message, character for
    character, at the persona's label; a message without leading or
    trailing whitespace is therefore echoed exactly as sent. *)
Theorem trimmed_message_echoed (req : AgentRequest.t) :
  strip (AgentRequest.message req) <> [] ->
  exists resp,
    agent_respond req = ([persona_of_role (AgentRequest.role req)], inr resp)
    /\ echoes_at_label (persona_of_role (AgentRequest.role req))
         (strip (AgentRequest.message req)) (AgentResponse.reply resp)
    /\ (starts_with_space (AgentRequest.message req) = false ->
        ends_with_space (AgentRequest.message req) = false ->
        echoes_at_label (persona_of_role (AgentRequest.role req))
          (AgentRequest.message req) (AgentResponse.reply resp)).
Proof.
  intros H. destruct (agent_respond_echoes req H) as (resp & E & Hecho).
  exists resp. repeat split; [exact E | exact Hecho |].
  intros Hs He. now rewrite (strip_id _ Hs He) in Hecho.
Qed.

Lemma trimmed_message_echoed_witness :
  let req := AgentRequest.mk (py "finance") (py " a <b> & 'c' " ++ NL ++ py "d" ++ NL) None in
  strip (AgentRequest.message req) <> []
  /\ exists resp,
       agent_respond req = ([persona_of_role (AgentRequest.role req)], inr resp)
       /\ echoes_at_label (persona_of_role (AgentRequest.role req))
            (strip (AgentRequest.message req)) (AgentResponse.reply resp)
       /\ (starts_with_space (AgentRequest.message req) = false ->
           ends_with_space (AgentRequest.message req) = false ->
           echoes_at_label (persona_of_role (AgentRequest.role req))
             (AgentRequest.message req) (AgentResponse.reply resp)).
Proof.
  intros req. split.
  - vm_compute. discriminate.
  - apply (trimmed_message_echoed req). vm_compute. discriminate.
Defined.

(** C9: the text at the label is [message.strip()]: the message is its
    leading whitespace, then the echoed text, then its trailing
    whitespace; the echoed text neither starts nor ends with whitespace;
    it differs from the message exactly when the message starts or ends
    with whitespace. *)
Theorem echoed_text_is_stripped (req : AgentRequest.t) :
  strip (AgentRequest.message req) <> [] ->
  exists resp,
    agent_respond req = ([persona_of_role (AgentRequest.role req)], inr resp)
    /\ echoes_at_label (persona_of_role (AgentRequest.role req))
         (strip (AgentRequest.message req)) (AgentResponse.reply resp)
    /\ AgentRequest.message req
       = leading_space (AgentRequest.message req)
         ++ strip (AgentRequest.message req)
         ++ trailing_space (AgentRequest.message req)
    /\ forallb isspace (leading_space (AgentRequest.message req)) = true
    /\ forallb isspace (trailing_space (AgentRequest.message req)) = true
    /\ starts_with_space (strip (AgentRequest.message req)) = false
    /\ ends_with_space (strip (AgentRequest.message req)) = false
    /\ (starts_with_space (AgentRequest.message req) = true
        \/ ends_with_space (AgentRequest.message req) = true ->
        strip (AgentRequest.message req) <> AgentRequest.message req)
    /\ (starts_with_space (AgentRequest.message req) = false ->
        ends_with_space (AgentRequest.message req) = false ->
        strip (AgentRequest.message req) = AgentRequest.message req).
Proof.
  intros H. destruct (agent_respond_echoes req H) as (resp & E & Hecho).
  exists resp.
  split; [exact E|]. split; [exact Hecho|].
  split; [apply strip_split|].
  split; [apply leading_space_all|]. split; [apply trailing_space_all|].
  split; [apply strip_starts|]. split; [apply strip_ends|].
  split; [apply strip_changes | apply strip_id].
Qed.

Lemma echoed_text_is_stripped_witness :
  let req := AgentRequest.mk (py "general") (py "  plan my week" ++ NL) None in
  strip (AgentRequest.message req) <> []
  /\ strip (AgentRequest.message req) = py "plan my week"
  /\ exists resp,
       agent_respond req = ([General], inr resp)
       /\ echoes_at_label General (py "plan my week") (AgentResponse.reply resp).
Proof.
  intros req.
  assert (Hne : strip (AgentRequest.message req) <> [])
    by (vm_compute; discriminate).
  split; [exact Hne|]. split; [vm_compute; reflexivity|].
  destruct (echoed_text_is_stripped req Hne) as (resp & E & Hecho & _).
  exists resp. split; [exact E | exact Hecho].
Defined.

(** ** The boundary and the empty-message error *)

Lemma validate_Some (raw : RawRequest.t) (req : AgentRequest.t) :
  validate raw = Some req ->
  exists m,
    RawRequest.message raw = Some m
    /\ (1 <= length m)%nat
    /\ req = AgentRequest.mk (default (py "general") (RawRequest.role raw)) m
               (RawRequest.context raw).
Proof.
  unfold validate. case_bool_decide; [|discriminate].
  destruct (RawRequest.message raw) as [m|]; [|discriminate].
  destruct (1 <=? length m)%nat eqn:L; [|discriminate].
  intros [= <-]. exists m. repeat split. now apply Nat.leb_le.
Qed.

Lemma validate_empty (raw : RawRequest.t) :
  RawRequest.message raw = Some [] -> validate raw = None.
Proof.
  intros H. unfold validate. rewrite H. now case_bool_decide.
Qed.

(** C4, as stated, fails: a body whose message is the empty string trims
    to the empty string, yet the route answers 422 from validation, not
    400. *)
Lemma blank_message_counterexample :
  let raw := RawRequest.mk (Some (py "general")) (Some (py "")) None in
  RawRequest.message raw = Some []
  /\ strip [] = []
  /\ post_agent_respond raw = Unprocessable
  /\ http_status (post_agent_respond raw) = 422
  /\ http_status (post_agent_respond raw) <> 400.
Proof.
  intros raw.
  assert (E : post_agent_respond raw = Unprocessable)
    by (unfold post_agent_respond; now rewrite validate_empty).
  rewrite E. repeat split. discriminate.
Qed.

(** C4, amended: for every request that passes validation (so its
    message has at least one character), if the message trims to the
    empty string the route fails with status 400 and detail
    ["Message cannot be empty"] and no responder is called; if the
    message is not empty after trimming, one responder is called and its
    response is returned, so that error is not raised. *)
Theorem blank_message_rejected (raw : RawRequest.t) (req : AgentRequest.t) :
  validate raw = Some req ->
  (strip (AgentRequest.message req) = [] ->
     post_agent_respond raw
       = Handled ([], inl (HTTPException.mk 400 (py "Message cannot be empty")))
     /\ http_status (post_agent_respond raw) = 400)
  /\ (strip (AgentRequest.message req) <> [] ->
      exists p resp, post_agent_respond raw = Handled ([p], inr resp)).
Proof.
  intros V. unfold post_agent_respond. rewrite V. split; intros H.
  - rewrite (agent_respond_blank req H). split; reflexivity.
  - rewrite (agent_respond_dispatch req H). eauto.
Qed.

Lemma blank_message_rejected_witness :
  let blank := RawRequest.mk (Some (py "lawyer")) (Some (py "   ")) None in
  let blank_req := AgentRequest.mk (py "lawyer") (py "   ") None in
  let plain := RawRequest.mk None (Some (py "hi")) None in
  let plain_req := AgentRequest.mk (py "general") (py "hi") None in
  (validate blank = Some blank_req
   /\ strip (AgentRequest.message blank_req) = []
   /\ post_agent_respond blank
      = Handled ([], inl (HTTPException.mk 400 (py "Message cannot be empty")))
   /\ http_status (post_agent_respond blank) = 400)
  /\ (validate plain = Some plain_req
      /\ strip (AgentRequest.message plain_req) <> []
      /\ exists p resp, post_agent_respond plain = Handled ([p], inr resp)).
Proof.
  intros blank blank_req plain plain_req.
  assert (Vb : validate blank = Some blank_req) by (vm_compute; reflexivity).
  assert (Sb : strip (AgentRequest.message blank_req) = [])
    by (vm_compute; reflexivity).
  assert (Vp : validate plain = Some plain_req) by (vm_compute; reflexivity).
  assert (Sp : strip (AgentRequest.message plain_req) <> [])
    by (vm_compute; discriminate).
  split.
  - split; [exact Vb|]. split; [exact Sb|].
    exact (proj1 (blank_message_rejected blank blank_req Vb) Sb).
  - split; [exact Vp|]. split; [exact Sp|].
    exact (proj2 (blank_message_rejected plain plain_req Vp) Sp).
Defined.

(** C10: a body whose message is the empty string is refused by
    validation (422) and the handler does not run; whenever the handler
    raises, the message has at least one character, all of them
    whitespace, and the error is the empty-message error with no
    responder called; and every validated all-whitespace message does
    reach that error. *)
Theorem empty_message_stops_at_validation (raw : RawRequest.t) :
  (RawRequest.message raw = Some [] ->
     post_agent_respond raw = Unprocessable
     /\ http_status (post_agent_respond raw) = 422)
  /\ (forall calls e,
        post_agent_respond raw = Handled (calls, inl e) ->
        exists m,
          RawRequest.message raw = Some m
          /\ (1 <= length m)%nat
          /\ forallb isspace m = true
          /\ calls = []
          /\ e = HTTPException.mk 400 (py "Message cannot be empty"))
  /\ (forall req,
        validate raw = Some req ->
        forallb isspace (AgentRequest.message req) = true ->
        post_agent_respond raw
          = Handled ([], inl (HTTPException.mk 400 (py "Message cannot be empty")))).
Proof.
  split; [|split].
  - intros H. unfold post_agent_respond. rewrite (validate_empty raw H).
    split; reflexivity.
  - intros calls e. unfold post_agent_respond.
    destruct (validate raw) as [req|] eqn:V; [|discriminate].
    destruct (validate_Some raw req V) as (m & Hm & Hlen & ->).
    destruct (strip m) as [|c s] eqn:S.
    + rewrite agent_respond_blank by exact S.
      intros [= <- <-]. exists m. repeat split; try assumption.
      now apply strip_nil_iff.
    + rewrite agent_respond_dispatch
        by (cbn [AgentRequest.message]; rewrite S; discriminate).
      discriminate.
  - intros req V Hall. unfold post_agent_respond. rewrite V.
    rewrite agent_respond_blank; [reflexivity | now apply strip_nil_iff].
Qed.

Lemma empty_message_stops_at_validation_witness :
  let empty := RawRequest.mk (Some (py "student")) (Some (py "")) None in
  let blank := RawRequest.mk (Some (py "student")) (Some (py " " ++ TAB)) None in
  let blank_req := AgentRequest.mk (py "student") (py " " ++ TAB) None in
  (RawRequest.message empty = Some []
   /\ post_agent_respond empty = Unprocessable
   /\ http_status (post_agent_respond empty) = 422)
  /\ (validate blank = Some blank_req
      /\ forallb isspace (AgentRequest.message blank_req) = true
      /\ post_agent_respond blank
         = Handled ([], inl (HTTPException.mk 400 (py "Message cannot be empty")))).
Proof.
  intros empty blank blank_req.
  assert (Vb : validate blank = Some blank_req) by (vm_compute; reflexivity).
  assert (Wb : forallb isspace (AgentRequest.message blank_req) = true)
    by (vm_compute; reflexivity).
  split.
  - split; [reflexivity|].
    exact (proj1 (empty_message_stops_at_validation empty) eq_refl).
  - split; [exact Vb|]. split; [exact Wb|].
    exact (proj2 (proj2 (empty_message_stops_at_validation blank))
             blank_req Vb Wb).
Defined.

(** ** The context field *)

(** C8: two requests with the same role and message get the same answer
    whatever their context fields hold, absent ones included, at the
    route and in the handler. *)
Theorem context_ignored (role message c1 c2 : option pystr) :
  post_agent_respond (RawRequest.mk role message c1)
    = post_agent_respond (RawRequest.mk role message c2)
  /\ forall r m,
       agent_respond (AgentRequest.mk r m c1)
         = agent_respond (AgentRequest.mk r m c2).
Proof.
  split.
  - unfold post_agent_respond, validate.
    cbn [RawRequest.role RawRequest.message RawRequest.context].
    case_bool_decide; [|reflexivity].
    destruct message as [m|]; [|reflexivity].
    destruct (1 <=? length m)%nat; reflexivity.
  - intros r m. reflexivity.
Qed.

(** ** The diagnostics probe *)

(** An exception that no clause takes leaves the handler. *)
Lemma test_database_escapes (w : World.t) (e : PyExc.t) :
  escaping w = Some e -> test_database w = inl e.
Proof.
  probe_cases w; run_test_database; intros [= <-] || discriminate;
    reflexivity.
Qed.

(** Otherwise the handler returns its dict. *)
Lemma test_database_returns (w : World.t) :
  escaping w = None -> exists response, test_database w = inr response.
Proof.
  probe_cases w; run_test_database; intros H; try discriminate H; eauto.
Qed.

Lemma returned_no_escape (w : World.t) (response : gmap string pyval) :
  test_database w = inr response -> escaping w = None.
Proof.
  intros R. destruct (escaping w) as [e|] eqn:E; [|reflexivity].
  rewrite (test_database_escapes w e E) in R. discriminate.
Qed.

Lemma test_database_status (w : World.t) :
  escaping w = None ->
  field "database" (test_database w) = Some (VStr (probe_status w)).
Proof.
  probe_cases w; run_test_database; intros H; try discriminate H;
    now read_item.
Qed.

Lemma test_database_collections (w : World.t) :
  escaping w = None ->
  field "collections" (test_database w)
  = Some (VList (match listed_names w with
                 | Some names => firstn 10 names
                 | None => []
                 end)).
Proof.
  probe_cases w; run_test_database; intros H; try discriminate H;
    now read_item.
Qed.

Lemma test_database_url (w : World.t) :
  escaping w = None ->
  field "database_url" (test_database w)
  = Some (indicator (configured (World.environ w) (py "DATABASE_URL"))).
Proof.
  probe_cases w; run_test_database; intros H; try discriminate H;
    now read_item.
Qed.

Lemma test_database_name (w : World.t) :
  escaping w = None ->
  field "database_name" (test_database w)
  = Some (indicator (configured (World.environ w) (py "DATABASE_NAME"))).
Proof.
  probe_cases w; run_test_database; intros H; try discriminate H;
    now read_item.
Qed.

(** Reads a field of a returned object through the lemma for it. *)
Lemma field_of_returned (w : World.t) (response : gmap string pyval)
    (k : string) (v : pyval) :
  test_database w = inr response ->
  (escaping w = None -> field k (test_database w) = Some v) ->
  response !! k = Some v.
Proof.
  intros R F. specialize (F (returned_no_escape w response R)).
  now rewrite R in F.
Qed.




(** C6, as stated, fails: with [DATABASE_URL] set in both runs, once to
    the empty string and once to a URL, and everything else equal, the
    [database_url] fields differ. *)
Lemma env_presence_counterexample :
  let absent :=
    inl (PyExc.mk PyExc.ImportError (py "No module named 'database'")) in
  let w1 := World.mk absent {[ py "DATABASE_URL" := py "" ]} in
  let w2 := World.mk absent {[ py "DATABASE_URL" := py "mongodb://localhost:27017" ]} in
  is_set (World.environ w1) (py "DATABASE_URL")
    = is_set (World.environ w2) (py "DATABASE_URL")
  /\ is_set (World.environ w1) (py "DATABASE_NAME")
     = is_set (World.environ w2) (py "DATABASE_NAME")
  /\ field "database_url" (test_database w1) = Some (indicator false)
  /\ field "database_url" (test_database w2) = Some (indicator true)
  /\ field "database_url" (test_database w1)
     <> field "database_url" (test_database w2).
Proof.
  intros absent w1 w2.
  assert (E1 : field "database_url" (test_database w1) = Some (indicator false))
    by (rewrite test_database_url by reflexivity; vm_compute; reflexivity).
  assert (E2 : field "database_url" (test_database w2) = Some (indicator true))
    by (rewrite test_database_url by reflexivity; vm_compute; reflexivity).
  split; [vm_compute; reflexivity|]. split; [vm_compute; reflexivity|].
  split; [exact E1|]. split; [exact E2|].
  rewrite E1, E2. vm_compute. discriminate.
Qed.

(** C6, amended: in every result of [GET /test] the [database_url] and
    [database_name] fields are the "set" indicator exactly when the
    variable is present with a non-empty value and the "not set"
    indicator otherwise; two results of runs that agree on that for both
    variables hold the same two fields, whatever the values and whatever
    the import did. *)
Theorem env_fields_presence_only (w1 w2 : World.t)
    (r1 r2 : gmap string pyval) :
  test_database w1 = inr r1 ->
  test_database w2 = inr r2 ->
  configured (World.environ w1) (py "DATABASE_URL")
    = configured (World.environ w2) (py "DATABASE_URL") ->
  configured (World.environ w1) (py "DATABASE_NAME")
    = configured (World.environ w2) (py "DATABASE_NAME") ->
  r1 !! "database_url" = r2 !! "database_url"
  /\ r1 !! "database_name" = r2 !! "database_name"
  /\ r1 !! "database_url"
     = Some (indicator (configured (World.environ w1) (py "DATABASE_URL")))
  /\ r1 !! "database_name"
     = Some (indicator (configured (World.environ w1) (py "DATABASE_NAME"))).
Proof.
  intros R1 R2 Hu Hn.
  rewrite (field_of_returned w1 r1 _ _ R1 (test_database_url w1)).
  rewrite (field_of_returned w1 r1 _ _ R1 (test_database_name w1)).
  rewrite (field_of_returned w2 r2 _ _ R2 (test_database_url w2)).
  rewrite (field_of_returned w2 r2 _ _ R2 (test_database_name w2)).
  rewrite Hu, Hn. repeat split.
Qed.

Lemma env_fields_presence_only_witness :
  let w1 :=
    World.mk
      (inl (PyExc.mk PyExc.ImportError (py "No module named 'database'")))
      {[ py "DATABASE_URL" := py "mongodb://a" ]} in
  let w2 :=
    World.mk
      (inr (Some (Database.mk (inr true) (inr (VStr (py "prod")))
                    (inr [py "users"]))))
      {[ py "DATABASE_URL" := py "mongodb://b:27017/x" ]} in
  exists r1 r2,
    test_database w1 = inr r1
    /\ test_database w2 = inr r2
    /\ configured (World.environ w1) (py "DATABASE_URL")
       = configured (World.environ w2) (py "DATABASE_URL")
    /\ configured (World.environ w1) (py "DATABASE_NAME")
       = configured (World.environ w2) (py "DATABASE_NAME")
    /\ r1 !! "database_url" = r2 !! "database_url"
    /\ r1 !! "database_name" = r2 !! "database_name"
    /\ r1 !! "database_url" = Some (indicator true)
    /\ r1 !! "database_name" = Some (indicator false).
Proof.
  intros w1 w2.
  destruct (test_database_returns w1 eq_refl) as [r1 R1].
  destruct (test_database_returns w2 eq_refl) as [r2 R2].
  assert (Hu : configured (World.environ w1) (py "DATABASE_URL")
               = configured (World.environ w2) (py "DATABASE_URL"))
    by (vm_compute; reflexivity).
  assert (Hn : configured (World.environ w1) (py "DATABASE_NAME")
               = configured (World.environ w2) (py "DATABASE_NAME"))
    by (vm_compute; reflexivity).
  exists r1, r2.
  destruct (env_fields_presence_only w1 w2 r1 r2 R1 R2 Hu Hn)
    as (Fu & Fn & Iu & In').
  repeat split; assumption.
Defined.

(** C7: in every result of [GET /test] the [collections] field is a
    list of at most 10 names: the first 10 names of the listing, in
    order, when the listing succeeded, and the empty list on every other
    path. *)
Theorem collections_at_most_ten (w : World.t) (response : gmap string pyval) :
  test_database w = inr response ->
  exists cs,
    response !! "collections" = Some (VList cs)
    /\ (length cs <= 10)%nat
    /\ cs = match listed_names w with
            | Some names => firstn 10 names
            | None => []
            end.
Proof.
  intros R. eexists.
  split; [exact (field_of_returned w response _ _ R (test_database_collections w))|].
  split; [|reflexivity].
  destruct (listed_names w) as [names|]; [apply firstn_le_length|].
  apply Nat.le_0_l.
Qed.

Lemma collections_at_most_ten_witness :
  let names := map (fun c => [c]) [97; 98; 99; 100; 101; 102; 103; 104; 105; 106; 107; 108] in
  let w :=
    World.mk (inr (Some (Database.mk (inr false) (inr VNone) (inr names)))) ∅ in
  exists response,
    test_database w = inr response
    /\ response !! "collections"
       = Some (VList (map (fun c => [c])
                        [97; 98; 99; 100; 101; 102; 103; 104; 105; 106])).
Proof.
  intros names w.
  destruct (test_database_returns w eq_refl) as [response R].
  exists response. split; [exact R|].
  destruct (collections_at_most_ten w response R) as (cs & F & _ & ->).
  exact F.
Defined.

Example listing_error_truncated :
  field "database"
    (test_database
       (World.mk
          (inr (Some (Database.mk (inr false) (inr VNone)
             (inl (PyExc.mk PyExc.Exception
                (py "localhost:27017: [Errno 111] Connection refused, Timeout: 30s"))))))
          ∅))
  = Some (VStr (py "⚠️  Connected but Error: localhost:27017: [Errno 111] Connection refused, T")).
Proof. vm_compute. reflexivity. Qed.

Example name_read_raises :
  let w :=
    World.mk
      (inr (Some (Database.mk (inr true)
                    (inl (PyExc.mk PyExc.Exception (py "boom")))
                    (inr [py "users"]))))
      ∅ in
  field "database" (test_database w) = Some (VStr (py "❌ Error: boom"))
  /\ field "connection_status" (test_database w)
     = Some (VStr (py "Not Connected"))
  /\ field "collections" (test_database w) = Some (VList []).
Proof. repeat split; vm_compute; reflexivity. Qed.

(** ** Further properties of the responder route *)

Lemma dropwhile_app_all {A} (f : A -> bool) (l l' : list A) :
  forallb f l = true -> dropwhile f (l ++ l') = dropwhile f l'.
Proof.
  induction l as [|x l IH]; simpl; [reflexivity|].
  destruct (f x); simpl; [exact IH | discriminate].
Qed.

Lemma dropwhile_app_stop {A} (f : A -> bool) (l l' : list A) :
  dropwhile f l <> [] -> dropwhile f (l ++ l') = dropwhile f l ++ l'.
Proof.
  induction l as [|x l IH]; simpl; [congruence|].
  destruct (f x); [exact IH | reflexivity].
Qed.

Lemma forallb_rev {A} (f : A -> bool) (l : list A) :
  forallb f l = true -> forallb f (rev l) = true.
Proof.
  rewrite !forallb_forall. intros H x Hx. apply H. now apply in_rev.
Qed.

Lemma lstrip_app_space (ws s : pystr) :
  forallb isspace ws = true -> lstrip (ws ++ s) = lstrip s.
Proof. apply dropwhile_app_all. Qed.

Lemma rstrip_app_space (s ws : pystr) :
  forallb isspace ws = true -> rstrip (s ++ ws) = rstrip s.
Proof.
  intros H. unfold rstrip. rewrite rev_app_distr.
  now rewrite (dropwhile_app_all isspace _ _ (forallb_rev isspace ws H)).
Qed.

(** Whitespace around a text does not change what [strip] keeps. *)
Lemma strip_outer (ws1 s ws2 : pystr) :
  forallb isspace ws1 = true -> forallb isspace ws2 = true ->
  strip (ws1 ++ s ++ ws2) = strip s.
Proof.
  intros H1 H2. unfold strip. rewrite (lstrip_app_space ws1 _ H1).
  destruct (lstrip s) as [|c l] eqn:E.
  - assert (Hs : forallb isspace s = true)
      by (apply dropwhile_nil_all; exact E).
    unfold lstrip. rewrite (dropwhile_app_all isspace s ws2 Hs).
    now rewrite (dropwhile_all isspace ws2 H2).
  - unfold lstrip in *. rewrite dropwhile_app_stop by (rewrite E; discriminate).
    rewrite E. now apply rstrip_app_space.
Qed.

Lemma strip_idempotent (s : pystr) : strip (strip s) = strip s.
Proof. apply strip_id; [apply strip_starts | apply strip_ends]. Qed.

Lemma strip_length (s : pystr) : (length (strip s) <= length s)%nat.
Proof.
  rewrite (strip_split s) at 2. rewrite !length_app. lia.
Qed.

Lemma respond_with_inj (p : persona) (m1 m2 : pystr) :
  respond_with p m1 = respond_with p m2 -> m1 = m2.
Proof.
  intros H. apply (f_equal AgentResponse.reply) in H.
  rewrite (respond_with_echoes p m1), (respond_with_echoes p m2) in H.
  do 2 apply app_inv_head in H.
  rewrite !app_assoc in H. do 2 apply app_inv_tail in H. exact H.
Qed.

Lemma template_overhead (p : persona) :
  (length (preamble p) + length (label p) + length (closing p)
   + length (remainder p))%nat = reply_overhead p.
Proof. destruct p; vm_compute; reflexivity. Qed.

(** X1: whitespace put before and after the message does not change the
    handler's outcome, and sending the trimmed message again gives the
    same outcome. *)
Theorem agent_respond_outer_whitespace (r m ws1 ws2 : pystr)
    (c : option pystr) :
  forallb isspace ws1 = true ->
  forallb isspace ws2 = true ->
  agent_respond (AgentRequest.mk r (ws1 ++ m ++ ws2) c)
    = agent_respond (AgentRequest.mk r m c)
  /\ agent_respond (AgentRequest.mk r (strip m) c)
     = agent_respond (AgentRequest.mk r m c).
Proof.
  intros H1 H2. unfold agent_respond.
  cbn [AgentRequest.message AgentRequest.role].
  now rewrite (strip_outer ws1 m ws2 H1 H2), strip_idempotent.
Qed.

Lemma agent_respond_outer_whitespace_witness :
  let ws1 := py " " ++ TAB in
  let ws2 := NL ++ py "  " in
  (forallb isspace ws1 = true /\ forallb isspace ws2 = true)
  /\ agent_respond (AgentRequest.mk (py "lawyer") (ws1 ++ py "a lease" ++ ws2) None)
     = agent_respond (AgentRequest.mk (py "lawyer") (py "a lease") None)
  /\ agent_respond (AgentRequest.mk (py "lawyer") (strip (py "a lease")) None)
     = agent_respond (AgentRequest.mk (py "lawyer") (py "a lease") None).
Proof.
  intros ws1 ws2.
  assert (H1 : forallb isspace ws1 = true) by (vm_compute; reflexivity).
  assert (H2 : forallb isspace ws2 = true) by (vm_compute; reflexivity).
  split; [split; [exact H1 | exact H2]|].
  exact (agent_respond_outer_whitespace (py "lawyer") (py "a lease") ws1 ws2
           None H1 H2).
Defined.

(** X2: for a message that is not blank, two requests get the same
    outcome exactly when their roles select the same persona and their
    messages trim to the same text: the response determines the trimmed
    message. *)
Theorem outcome_determines_message (q1 q2 : AgentRequest.t) :
  strip (AgentRequest.message q1) <> [] ->
  agent_respond q1 = agent_respond q2
  <-> persona_of_role (AgentRequest.role q1)
        = persona_of_role (AgentRequest.role q2)
      /\ strip (AgentRequest.message q1) = strip (AgentRequest.message q2).
Proof.
  intros H1. rewrite (agent_respond_dispatch q1 H1). split.
  - destruct (strip (AgentRequest.message q2)) as [|c s] eqn:S2.
    + rewrite (agent_respond_blank q2 S2). discriminate.
    + rewrite agent_respond_dispatch by (rewrite S2; discriminate).
      rewrite S2. intros [= Hp Hr]. split; [exact Hp|].
      rewrite <- Hp in Hr. exact (respond_with_inj _ _ _ Hr).
  - intros [Hp Hs].
    rewrite agent_respond_dispatch by (rewrite <- Hs; exact H1).
    now rewrite Hp, Hs.
Qed.

Lemma outcome_determines_message_witness :
  let q1 := AgentRequest.mk (py "general") (py " budget ") None in
  let q2 := AgentRequest.mk (py "pirate") (py "budget") (Some (py "x")) in
  strip (AgentRequest.message q1) <> []
  /\ agent_respond q1 = agent_respond q2.
Proof.
  intros q1 q2.
  assert (H : strip (AgentRequest.message q1) <> [])
    by (vm_compute; discriminate).
  split; [exact H|].
  apply (outcome_determines_message q1 q2 H).
  split; vm_compute; reflexivity.
Defined.

(** X3: the reply is the trimmed message plus a fixed number of
    characters per persona (153, 380, 327, 303), so it is never longer
    than the message plus that number. *)
Theorem reply_length (req : AgentRequest.t) :
  strip (AgentRequest.message req) <> [] ->
  exists calls resp,
    agent_respond req = (calls, inr resp)
    /\ length (AgentResponse.reply resp)
       = (length (strip (AgentRequest.message req))
          + reply_overhead (persona_of_role (AgentRequest.role req)))%nat
    /\ (length (AgentResponse.reply resp)
        <= length (AgentRequest.message req)
           + reply_overhead (persona_of_role (AgentRequest.role req)))%nat.
Proof.
  intros H. destruct (agent_respond_echoes req H) as (resp & E & Hecho).
  exists [persona_of_role (AgentRequest.role req)], resp.
  split; [exact E|].
  pose proof (template_overhead (persona_of_role (AgentRequest.role req))) as T.
  pose proof (strip_length (AgentRequest.message req)) as L.
  rewrite Hecho, !length_app. lia.
Qed.

Lemma reply_length_witness :
  let req := AgentRequest.mk (py "student") (py " derivatives") None in
  strip (AgentRequest.message req) <> []
  /\ exists calls resp,
       agent_respond req = (calls, inr resp)
       /\ length (AgentResponse.reply resp) = (11 + 380)%nat.
Proof.
  intros req.
  assert (H : strip (AgentRequest.message req) <> [])
    by (vm_compute; discriminate).
  split; [exact H|].
  destruct (reply_length req H) as (calls & resp & E & L & _).
  exists calls, resp. split; [exact E|].
  rewrite L. vm_compute. reflexivity.
Defined.

Lemma persona_name_of_literal (r : pystr) :
  r ∈ [py "general"; py "student"; py "finance"; py "lawyer"] ->
  persona_name (persona_of_role r) = r.
Proof.
  intros H. repeat (apply elem_of_cons in H as [-> | H]);
    [vm_compute; reflexivity .. |].
  now apply elem_of_nil in H.
Qed.

(** What validation accepts, and what the accepted request holds. *)
Lemma validate_shape (raw : RawRequest.t) (req : AgentRequest.t) :
  validate raw = Some req
  <-> default (py "general") (RawRequest.role raw)
        ∈ [py "general"; py "student"; py "finance"; py "lawyer"]
      /\ exists m,
           RawRequest.message raw = Some m
           /\ m <> []
           /\ req = AgentRequest.mk
                      (default (py "general") (RawRequest.role raw)) m
                      (RawRequest.context raw).
Proof.
  unfold validate. split.
  - case_bool_decide as Hr; [|discriminate].
    destruct (RawRequest.message raw) as [m|]; [|discriminate].
    destruct m as [|c m]; [discriminate|].
    intros [= <-]. split; [exact Hr|]. exists (c :: m). now repeat split.
  - intros (Hr & m & -> & Hm & ->).
    rewrite bool_decide_eq_true_2 by exact Hr.
    destruct m as [|c m]; [congruence | reflexivity].
Qed.



(** X5: when the route answers with a response, the response's role is
    the role the body asked for, or ["general"] when the body gave none. *)
Theorem route_echoes_role (raw : RawRequest.t) (calls : list persona)
    (resp : AgentResponse.t) :
  post_agent_respond raw = Handled (calls, inr resp) ->
  AgentResponse.role resp = default (py "general") (RawRequest.role raw).
Proof.
  unfold post_agent_respond.
  destruct (validate raw) as [req|] eqn:V; [|discriminate].
  apply validate_shape in V as (Hr & m & _ & _ & ->).
  destruct (strip m) as [|c s] eqn:S.
  - rewrite agent_respond_blank by exact S. discriminate.
  - rewrite agent_respond_dispatch
      by (cbn [AgentRequest.message]; rewrite S; discriminate).
    intros [= _ <-]. rewrite respond_with_role.
    cbn [AgentRequest.role]. now apply persona_name_of_literal.
Qed.

Lemma route_echoes_role_witness :
  let raw := RawRequest.mk None (Some (py "hello")) None in
  exists calls resp,
    post_agent_respond raw = Handled (calls, inr resp)
    /\ AgentResponse.role resp = py "general".
Proof.
  intros raw. exists [General], (_respond_general (py "hello")).
  assert (E : post_agent_respond raw
              = Handled ([General], inr (_respond_general (py "hello"))))
    by (vm_compute; reflexivity).
  split; [exact E|].
  exact (route_echoes_role raw _ _ E).
Defined.

(** The three statuses of the route, by what validation and trimming
    give. *)
Lemma route_status_cases (raw : RawRequest.t) :
  (http_status (post_agent_respond raw) = 422 <-> validate raw = None)
  /\ (http_status (post_agent_respond raw) = 400
      <-> exists req,
            validate raw = Some req
            /\ forallb isspace (AgentRequest.message req) = true)
  /\ (http_status (post_agent_respond raw) = 200
      <-> exists req,
            validate raw = Some req
            /\ strip (AgentRequest.message req) <> [])
  /\ (http_status (post_agent_respond raw) = 200
      \/ http_status (post_agent_respond raw) = 400
      \/ http_status (post_agent_respond raw) = 422).
Proof.
  unfold post_agent_respond.
  destruct (validate raw) as [req|] eqn:V.
  - destruct (strip (AgentRequest.message req)) as [|c s] eqn:S.
    + rewrite (agent_respond_blank req S).
      cbn [http_status empty_message_error HTTPException.status_code].
      repeat split; try discriminate; try tauto.
      * intros _. exists req. split; [reflexivity | now apply strip_nil_iff].
      * intros (req' & [= <-] & W). congruence.
    + rewrite agent_respond_dispatch by (rewrite S; discriminate).
      cbn [http_status].
      repeat split; try discriminate; try tauto.
      * intros (req' & [= <-] & W). apply strip_nil_iff in W. congruence.
      * intros _. exists req. split; [reflexivity | rewrite S; discriminate].
  - cbn [http_status].
    repeat split; try discriminate; try tauto;
      intros (req' & [=] & _).
Qed.

(** X6: to a body made of Unicode text the route answers with one of
    three statuses: 422 exactly when validation refuses the body, 400
    exactly when the validated message is all whitespace, 200 exactly
    when the validated message keeps some text after trimming. *)
Theorem route_status (raw : RawRequest.t) :
  unicode_body raw = true ->
  (http_status (post_agent_respond raw) = 422 <-> validate raw = None)
  /\ (http_status (post_agent_respond raw) = 400
      <-> exists req,
            validate raw = Some req
            /\ forallb isspace (AgentRequest.message req) = true)
  /\ (http_status (post_agent_respond raw) = 200
      <-> exists req,
            validate raw = Some req
            /\ strip (AgentRequest.message req) <> [])
  /\ (http_status (post_agent_respond raw) = 200
      \/ http_status (post_agent_respond raw) = 400
      \/ http_status (post_agent_respond raw) = 422).
Proof. intros _. apply route_status_cases. Qed.

Lemma route_status_witness :
  let refused := RawRequest.mk (Some (py "Student")) (Some (py "hi")) None in
  let blank := RawRequest.mk (Some (py "student")) (Some (py "  ")) None in
  let plain := RawRequest.mk (Some (py "student")) (Some (py "hi")) None in
  (unicode_body refused = true
   /\ http_status (post_agent_respond refused) = 422)
  /\ (unicode_body blank = true
      /\ http_status (post_agent_respond blank) = 400)
  /\ (unicode_body plain = true
      /\ http_status (post_agent_respond plain) = 200).
Proof.
  intros refused blank plain.
  assert (U1 : unicode_body refused = true) by (vm_compute; reflexivity).
  assert (U2 : unicode_body blank = true) by (vm_compute; reflexivity).
  assert (U3 : unicode_body plain = true) by (vm_compute; reflexivity).
  split; [|split].
  - split; [exact U1|].
    apply (proj1 (route_status refused U1)). vm_compute. reflexivity.
  - split; [exact U2|].
    apply (proj1 (proj2 (route_status blank U2))).
    exists (AgentRequest.mk (py "student") (py "  ") None).
    split; vm_compute; reflexivity.
  - split; [exact U3|].
    apply (proj1 (proj2 (proj2 (route_status plain U3)))).
    exists (AgentRequest.mk (py "student") (py "hi") None).
    split; [vm_compute; reflexivity | vm_compute; discriminate].
Defined.

(** ** Further properties of the diagnostics probe *)

Lemma test_database_backend (w : World.t) :
  escaping w = None ->
  field "backend" (test_database w) = Some (VStr (py "✅ Running")).
Proof.
  probe_cases w; run_test_database; intros H; try discriminate H;
    now read_item.
Qed.

Lemma test_database_connection (w : World.t) :
  escaping w = None ->
  field "connection_status" (test_database w)
  = Some (VStr (if handle_ready w then py "Connected"
                else py "Not Connected")).
Proof.
  probe_cases w; run_test_database; intros H; try discriminate H;
    now read_item.
Qed.

Lemma test_database_dom (w : World.t) (response : gmap string pyval) :
  test_database w = inr response -> dom response = diagnostics_keys.
Proof.
  probe_cases w; run_test_database; intros [= <-];
    unfold diagnostics_keys; rewrite !dom_insert_L, dom_empty_L; set_solver.
Qed.


(** X7: every object [GET /test] returns has exactly the six keys it was
    created with: no path adds or removes a key. *)
Theorem diagnostics_keys_fixed (w : World.t) (response : gmap string pyval) :
  test_database w = inr response -> dom response = diagnostics_keys.
Proof. apply test_database_dom. Qed.

Lemma diagnostics_keys_fixed_witness :
  let w :=
    World.mk
      (inr (Some (Database.mk (inr true) (inr (VStr (py "app")))
                    (inr [py "users"; py "orders"]))))
      ∅ in
  exists response,
    test_database w = inr response /\ dom response = diagnostics_keys.
Proof.
  intros w. destruct (test_database_returns w eq_refl) as [response R].
  exists response. split; [exact R|].
  exact (diagnostics_keys_fixed w response R).
Defined.

(** X8: in every object [GET /test] returns, [backend] reads as running,
    and [connection_status] reads ["Connected"] exactly when its
    assignment was reached: the import gave a handle that is not [None]
    and reading the handle's name raised nothing, also when the listing
    then failed; otherwise it reads ["Not Connected"]. *)
Theorem connection_status_tracks_handle (w : World.t)
    (response : gmap string pyval) :
  test_database w = inr response ->
  response !! "backend" = Some (VStr (py "✅ Running"))
  /\ response !! "connection_status"
     = Some (VStr (if handle_ready w then py "Connected"
                   else py "Not Connected"))
  /\ (handle_ready w = true
      <-> exists db has,
            World.import_db w = inr (Some db)
            /\ Database.hasattr_name db = inr has
            /\ (has = true -> exists v, Database.name db = inr v)).
Proof.
  intros R. split; [|split].
  - exact (field_of_returned w response _ _ R (test_database_backend w)).
  - exact (field_of_returned w response _ _ R (test_database_connection w)).
  - clear R. unfold handle_ready, path, listing_path.
    destruct w as [[e | [[has nm lst] |]] env];
      cbn [World.import_db Database.hasattr_name Database.name
           Database.list_collection_names].
    + split; [discriminate | intros (db & h & [=] & _)].
    + destruct has as [e | [|]].
      * split; [discriminate | intros (db & h & [= <-] & [=] & _)].
      * destruct nm as [e | v].
        -- split; [discriminate|].
           intros (db & h & [= <-] & [= <-] & Hn).
           destruct (Hn eq_refl) as [v [=]].
        -- split; [|now destruct lst].
           intros _. eexists _, true. repeat split. intros _. now exists v.
      * split; [|now destruct lst].
        intros _. eexists _, false. repeat split. discriminate.
    + split; [discriminate | intros (db & h & [=] & _)].
Qed.

Lemma connection_status_tracks_handle_witness :
  let refused := PyExc.mk PyExc.Exception (py "connection refused") in
  let broken := PyExc.mk PyExc.Exception (py "no such attribute") in
  let w1 :=
    World.mk (inr (Some (Database.mk (inr false) (inl broken) (inl refused))))
      ∅ in
  let w2 :=
    World.mk (inr (Some (Database.mk (inr true) (inl broken) (inr [py "users"]))))
      ∅ in
  (exists response,
     test_database w1 = inr response
     /\ response !! "connection_status" = Some (VStr (py "Connected")))
  /\ (exists response,
        test_database w2 = inr response
        /\ response !! "connection_status" = Some (VStr (py "Not Connected"))).
Proof.
  intros refused broken w1 w2. split.
  - destruct (test_database_returns w1 eq_refl) as [response R].
    exists response. split; [exact R|].
    exact (proj1 (proj2 (connection_status_tracks_handle w1 response R))).
  - destruct (test_database_returns w2 eq_refl) as [response R].
    exists response. split; [exact R|].
    exact (proj1 (proj2 (connection_status_tracks_handle w2 response R))).
Defined.



(** X10: in every object [GET /test] returns, the [database] field is a
    text of at most 75 characters: an exception's text enters it cut to
    50 characters. *)
Theorem status_text_bounded (w : World.t) (response : gmap string pyval) :
  test_database w = inr response ->
  exists s,
    response !! "database" = Some (VStr s) /\ (length s <= 75)%nat.
Proof.
  intros R. exists (probe_status w).
  split; [exact (field_of_returned w response _ _ R (test_database_status w))|].
  clear R.
  assert (L1 : length (py "❌ Database module not found (run enable-database first)")
               = 55%nat) by (vm_compute; reflexivity).
  assert (L2 : length (py "❌ Error: ") = 9%nat) by (vm_compute; reflexivity).
  assert (L3 : length (py "⚠️  Available but not initialized") = 33%nat)
    by (vm_compute; reflexivity).
  assert (L4 : length (py "⚠️  Connected but Error: ") = 25%nat)
    by (vm_compute; reflexivity).
  assert (L5 : length (py "✅ Connected & Working") = 21%nat)
    by (vm_compute; reflexivity).
  unfold probe_status.
  destruct (path w) as [e | | e | names];
    try destruct (PyExc.is_ImportError e);
    rewrite ?length_app, ?L1, ?L2, ?L3, ?L4, ?L5;
    try pose proof (firstn_le_length 50 (PyExc.str e));
    lia.
Qed.

Lemma status_text_bounded_witness :
  let long := py "ServerSelectionTimeoutError: localhost:27017: [Errno 111] refused" in
  let w :=
    World.mk
      (inr (Some (Database.mk (inr false) (inr VNone)
                    (inl (PyExc.mk PyExc.Exception long)))))
      ∅ in
  (50 < length long)%nat
  /\ exists response s,
       test_database w = inr response
       /\ response !! "database" = Some (VStr s)
       /\ (length s <= 75)%nat.
Proof.
  intros long w. split; [vm_compute; lia|].
  destruct (test_database_returns w eq_refl) as [response R].
  destruct (status_text_bounded w response R) as (s & F & L).
  exists response, s. repeat split; assumption.
Defined.
